(** * QuantumAlgorithm: the abstract base class of qiskit-quantum-knn

    A shallow embedding of [qiskit_quantum_knn/qknn/quantum_algorithm.py].

    The class keeps one attribute, [self._quantum_instance], which holds
    [None] or a reference to a [qiskit.utils.QuantumInstance] object, and
    offers [run], the [quantum_instance] and [backend] properties and
    [set_backend].  [QuantumInstance] objects are mutable and shared, so
    they live in a heap and Python values refer to them by location.
    Methods are computations in a state-and-exception monad over that heap
    and the attributes of [self]. *)

From stdpp Require Import base option gmap strings.

Open Scope string_scope.

(** ** Python values, exceptions, outcomes *)

(** The identity of a [QuantumInstance] object. *)
Definition loc := positive.

(** What an argument annotated [Optional[Union[QuantumInstance, Backend]]]
    can be: [None], a backend ([isinstance(v, Backend)] holds), or a
    reference to a [QuantumInstance] object. *)
Inductive value (Backend : Type) : Type :=
| VNone
| VBackend (b : Backend)
| VInstance (l : loc).
Arguments VNone {Backend}.
Arguments VBackend {Backend} b.
Arguments VInstance {Backend} l.

(** Exceptions.  [TypeError] is the one Python raises for a call whose
    arguments do not fit the parameters; its message is the interpreter's.
    [Dangling] is not a Python exception: it is what the model answers when
    a reference to no object is followed, which no Python program can do. *)
Inductive exn : Type :=
| ValueError (msg : string)
| AttributeError (msg : string)
| TypeError
| OtherError (name : string)
| Dangling.

Inductive outcome (A : Type) : Type :=
| Return (a : A)
| Raise (e : exn).
Arguments Return {A} a.
Arguments Raise {A} e.

(** ** The collaborator: qiskit's QuantumInstance

    The class is imported, not defined, by the module.  It is used through
    its constructor [QuantumInstance(backend)], its method
    [set_config], called with keyword arguments, which updates the object
    in place, and its property [backend].  [QIState] is the state of one such object.  Both
    the constructor and [set_config] may raise; [set_config] may have
    changed the object by then.  [backend_truthy] is the truth value of a
    backend object in [if quantum_instance:]. *)
Class Collaborator (Backend OptVal : Type) : Type := {
  QIState : Type;
  qi_init : Backend -> outcome QIState;
  qi_set_config : gmap string OptVal -> QIState -> outcome unit * QIState;
  qi_backend : QIState -> Backend;
  backend_truthy : Backend -> bool
}.

(** What the module relies on: a context is built around the backend it is
    given, and configuring it does not change its backend. *)
Class CollaboratorLaws {Backend OptVal : Type} (C : Collaborator Backend OptVal)
  : Prop := {
  qi_backend_init : forall b q, qi_init b = Return q -> qi_backend q = b;
  qi_backend_set_config :
    forall kw q, qi_backend (qi_set_config kw q).2 = qi_backend q
}.

Section QuantumAlgorithm.

Context {Backend OptVal : Type} {C : Collaborator Backend OptVal}.
(** [Attrs]: the attributes a concrete subclass adds to [self];
    [Result]: the dictionary [_run] returns. *)
Context {Attrs Result : Type}.

Local Abbreviation kwargs := (gmap string OptVal) (only parsing).
Local Abbreviation pyval := (value Backend) (only parsing).

(** ** The world: the heap of contexts and the attributes of [self] *)

Record world : Type := World {
  heap : gmap loc QIState;
  _quantum_instance : pyval;
  attrs : Attrs
}.

Definition M (A : Type) : Type := world -> outcome A * world.

#[export] Instance M_ret : MRet M := fun A a w => (Return a, w).

#[export] Instance M_bind : MBind M := fun A B f m w =>
  match m w with
  | (Return a, w') => f a w'
  | (Raise e, w') => (Raise e, w')
  end.

Definition raise {A : Type} (e : exn) : M A := fun w => (Raise e, w).

(** [self._quantum_instance = v] *)
Definition store (v : pyval) : M unit := fun w =>
  (Return tt, World (heap w) v (attrs w)).

(** [QuantumInstance(backend)]: a new object, at a location not in use. *)
Definition QuantumInstance (backend : Backend) : M pyval := fun w =>
  match qi_init backend with
  | Return q =>
      let l := fresh (dom (heap w)) in
      (Return (VInstance l), World (<[l := q]> (heap w)) (_quantum_instance w) (attrs w))
  | Raise e => (Raise e, w)
  end.

(** [v.set_config] called with the keyword arguments [kw] *)
Definition set_config (v : pyval) (kw : kwargs) : M unit := fun w =>
  match v with
  | VInstance l =>
      match heap w !! l with
      | Some q =>
          let r := qi_set_config kw q in
          (r.1, World (<[l := r.2]> (heap w)) (_quantum_instance w) (attrs w))
      | None => (Raise Dangling, w)
      end
  | VNone => (Raise (AttributeError "'NoneType' object has no attribute 'set_config'"), w)
  | VBackend _ => (Raise (AttributeError "object has no attribute 'set_config'"), w)
  end.

(** [v.backend] *)
Definition get_backend (v : pyval) : M Backend := fun w =>
  match v with
  | VInstance l =>
      match heap w !! l with
      | Some q => (Return (qi_backend q), w)
      | None => (Raise Dangling, w)
      end
  | VNone => (Raise (AttributeError "'NoneType' object has no attribute 'backend'"), w)
  | VBackend _ => (Raise (AttributeError "object has no attribute 'backend'"), w)
  end.

(** [if v:] *)
Definition truthy (v : pyval) : bool :=
  match v with
  | VNone => false
  | VBackend b => backend_truthy b
  | VInstance _ => true
  end.

Definition is_None (v : pyval) : bool :=
  match v with VNone => true | _ => false end.

(** ** The class *)

(** The abstract method: a subclass provides [_run]. *)
Class QuantumAlgorithm : Type := { _run : M Result }.

(** Property [quantum_instance], getter. *)
Definition quantum_instance : M pyval := fun w =>
  (Return (_quantum_instance w), w).

(** Property [quantum_instance], setter. *)
Definition quantum_instance_setter (quantum_instance : pyval) : M unit :=
  qi ← match quantum_instance with
       | VBackend b => QuantumInstance b
       | _ => mret quantum_instance
       end;
  store qi.

(** A call [f(x, **kw)] binds the keyword arguments to the parameters of
    [f] of the same names, and the others to its [**kwargs].  A keyword
    that names a parameter the call has given already is a [TypeError],
    raised before the body of [f] runs. *)
Definition kwargs_clash (params : list string) (kw : kwargs) : bool :=
  existsb (fun p => bool_decide (is_Some (kw !! p))) params.

Definition bind_kwargs (params : list string) (kw : kwargs) : M unit :=
  if kwargs_clash params kw then raise TypeError else mret tt.

(** The parameters of [set_backend] that a call [self.set_backend(b, **kw)]
    gives before its keywords. *)
Definition set_backend_params : list string := ["self"; "backend"].

(** [self.set_backend(backend, **kw)]: the binding of [kw], then the body. *)
Definition set_backend (backend : Backend) (kw : kwargs) : M unit :=
  bind_kwargs set_backend_params kw;;
  qi ← QuantumInstance backend;
  quantum_instance_setter qi;;
  self_qi ← quantum_instance;
  set_config self_qi kw.

(** Property [backend], getter. *)
Definition backend : M Backend :=
  qi ← quantum_instance;
  get_backend qi.

(** Property [backend], setter. *)
Definition backend_setter (backend : Backend) : M unit :=
  set_backend backend ∅.

Definition missing_context : string :=
  "Quantum device or backend is needed since you are running quantum algorithm.".

(** The body of [run], with [quantum_instance_arg] and [kw] the values its
    parameters [quantum_instance] and [**kwargs] are bound to. *)
Definition run `{QuantumAlgorithm} (quantum_instance_arg : pyval) (kw : kwargs)
  : M Result :=
  missing ← (if is_None quantum_instance_arg
             then stored ← quantum_instance; mret (is_None stored)
             else mret false);
  (if missing : bool then raise (ValueError missing_context) else mret tt);;
  match quantum_instance_arg with
  | VBackend b => set_backend b kw
  | VNone => mret tt
  | VInstance _ => quantum_instance_setter quantum_instance_arg
  end;;
  _run.

Definition __init__ (quantum_instance : pyval) : M unit :=
  store VNone;;
  if truthy quantum_instance
  then quantum_instance_setter quantum_instance
  else mret tt.

(** The world [set_backend] and the context setter leave behind: a context
    [q] at a new location, which is the stored one. *)
Definition with_new_context (w : world) (q : QIState) : world :=
  let l := fresh (dom (heap w)) in
  World (<[l := q]> (heap w)) (VInstance l) (attrs w).

(** ** Clients

    What a client can do to an instance, one call at a time. *)
Inductive operation : Type :=
| Init (quantum_instance : pyval)
| Run (quantum_instance : pyval) (kw : kwargs)
| SetQuantumInstance (quantum_instance : pyval)
| SetBackendWith (backend : Backend) (kw : kwargs)
| SetBackend (backend : Backend).

Definition exec `{QuantumAlgorithm} (op : operation) : M unit :=
  match op with
  | Init v => __init__ v
  | Run v kw => run v kw;; mret tt
  | SetQuantumInstance v => quantum_instance_setter v
  | SetBackendWith b kw => set_backend b kw
  | SetBackend b => backend_setter b
  end.

(** A client that goes on after an exception: the world each call leaves
    is the world the next one starts in. *)
Fixpoint exec_all `{QuantumAlgorithm} (ops : list operation) (w : world) : world :=
  match ops with
  | [] => w
  | op :: ops => exec_all ops (exec op w).2
  end.

(** A reference handed in by a client refers to an object that exists. *)
Definition arg_ok (v : pyval) (w : world) : Prop :=
  match v with
  | VInstance l => is_Some (heap w !! l)
  | _ => True
  end.

Definition op_ok (op : operation) (w : world) : Prop :=
  match op with
  | Init v | Run v _ | SetQuantumInstance v => arg_ok v w
  | SetBackendWith _ _ | SetBackend _ => True
  end.

(** The backend a call installs, if it gets as far as storing a context:
    the backend supplied, when the options bind and the collaborator makes a
    context for it, or the backend of the context supplied. *)
Definition wrapped (b : Backend) : option Backend :=
  match qi_init b with
  | Return _ => Some b
  | Raise _ => None
  end.

Definition installed (op : operation) (w : world) : option Backend :=
  match op with
  | Init _ | Run VNone _ | SetQuantumInstance VNone => None
  | Run (VInstance l) _ | SetQuantumInstance (VInstance l) =>
      qi_backend <$> heap w !! l
  | SetQuantumInstance (VBackend b) | SetBackend b => wrapped b
  | Run (VBackend b) kw | SetBackendWith b kw =>
      if kwargs_clash set_backend_params kw then None else wrapped b
  end.

(** The calls of a client that changes the backend or the context: [run],
    the two setters and [set_backend], with references to objects that
    exist, and not [None] assigned to the property. *)
Definition mutation_ok (op : operation) (w : world) : Prop :=
  match op with
  | Init _ | SetQuantumInstance VNone => False
  | Run v _ | SetQuantumInstance v => arg_ok v w
  | SetBackendWith _ _ | SetBackend _ => True
  end.

Fixpoint mutations_ok `{QuantumAlgorithm} (ops : list operation) (w : world)
  : Prop :=
  match ops with
  | [] => True
  | op :: ops => mutation_ok op w /\ mutations_ok ops (exec op w).2
  end.

(** What [backend] is to read after a sequence of calls, when it read
    [cur] before: the backend installed by the last call that installed
    one. *)
Fixpoint last_backend `{QuantumAlgorithm} (ops : list operation) (w : world)
    (cur : outcome Backend) : outcome Backend :=
  match ops with
  | [] => cur
  | op :: ops =>
      last_backend ops (exec op w).2
        (match installed op w with Some b => Return b | None => cur end)
  end.

(** The stored context is [None] or a [QuantumInstance] object, never a
    backend. *)
Definition context_ok (w : world) : Prop :=
  match _quantum_instance w with
  | VNone => True
  | VBackend _ => False
  | VInstance l => is_Some (heap w !! l)
  end.

#[export] Instance context_ok_dec (w : world) : Decision (context_ok w).
Proof. unfold context_ok. destruct (_quantum_instance w); apply _. Defined.

(** The worlds an instance can be in: constructed, then used, by a client
    that passes references to objects that exist. *)
Inductive reachable `{QuantumAlgorithm} : world -> Prop :=
| reachable_init (v : pyval) (w : world) :
    arg_ok v w -> reachable (exec (Init v) w).2
| reachable_step (op : operation) (w : world) :
    reachable w -> op_ok op w -> reachable (exec op w).2.

(** [QuantumAlgorithm._run], the body of the abstract method: what a
    subclass gets that hands over to it with [super()._run()]. *)
Definition abstract_run : M Result := raise (OtherError "NotImplementedError").

Definition abstract_algorithm : QuantumAlgorithm := {| _run := abstract_run |}.

End QuantumAlgorithm.

Arguments world {Backend OptVal} C Attrs.
Arguments QuantumAlgorithm {Backend OptVal} C Attrs Result.
Arguments operation Backend OptVal : clear implicits.

(** ** A reference collaborator and a reference algorithm *)

(** Modelled from the spec: qiskit's [QuantumInstance], which the module
    imports; it can be constructed from a backend, configured with named
    options, and asked for its backend.  Backends are named, options are
    numbers.  A context records its backend and the options set on it so
    far; a new context has none set. *)
Record ref_context : Type := RefContext {
  ref_backend : string;
  ref_config : gmap string nat
}.

#[export] Instance ref_collaborator : Collaborator string nat := {|
  QIState := ref_context;
  qi_init b := Return (RefContext b ∅);
  qi_set_config kw q := (Return tt, RefContext (ref_backend q) (kw ∪ ref_config q));
  qi_backend := ref_backend;
  backend_truthy _ := true
|}.

(** An algorithm whose result names the backend it ran on. *)
Definition ref_algorithm : QuantumAlgorithm ref_collaborator unit (gmap string string) :=
  {| _run := b ← backend; mret {[ "backend" := b ]} |}.

(** A world with one context, on backend [sim] with [shots] set to 1,
    stored or not. *)
Definition ref_world (stored : bool) : world ref_collaborator unit :=
  World (Attrs := unit) {[ 1%positive := RefContext "sim" {[ "shots" := 1 ]} ]}
        (if stored then VInstance 1%positive else VNone) tt.

(** The reading of the backend setter under which it changes the backend
    of the stored context and nothing else of it: after [self.backend = b]
    the stored context has backend [b] and the options of the context that
    was stored before. *)
Definition backend_setter_keeps_configuration
    (w : world ref_collaborator unit) (b : string) : Prop :=
  forall l q, _quantum_instance w = VInstance l -> heap w !! l = Some q ->
  let w' := (backend_setter b w).2 in
  exists l' q', _quantum_instance w' = VInstance l' /\ heap w' !! l' = Some q'
                /\ ref_backend q' = b /\ ref_config q' = ref_config q.

(** A collaborator that can refuse: no context can be made for the backend
    named [offline], and [set_config] knows the option [shots] only; given
    any other it raises and leaves the context as it was. *)
Definition strict_collaborator : Collaborator string nat := {|
  QIState := ref_context;
  qi_init b :=
    if String.eqb b "offline" then Raise (OtherError "QiskitError")
    else Return (RefContext b ∅);
  qi_set_config kw q :=
    if bool_decide (dom kw ⊆ ({[ "shots" ]} : gset string))
    then (Return tt, RefContext (ref_backend q) (kw ∪ ref_config q))
    else (Raise (ValueError "unknown setting"), q);
  qi_backend := ref_backend;
  backend_truthy _ := true
|}.

(** The algorithm of [ref_algorithm], over the refusing collaborator. *)
Definition strict_algorithm
  : QuantumAlgorithm strict_collaborator unit (gmap string string) :=
  {| _run := b ← backend; mret {[ "backend" := b ]} |}.

(** A world of the refusing collaborator with one context, on backend
    [sim] with [shots] set to 1, which is the stored one. *)
Definition strict_world : world strict_collaborator unit :=
  World (C := strict_collaborator) (Attrs := unit)
        {[ 1%positive := RefContext "sim" {[ "shots" := 1 ]} ]}
        (VInstance 1%positive) tt.

(** The reading of [run] with a backend under which any options are
    applied: after [run(b, **kw)] the stored context has backend [b] and
    every option of [kw] set. *)
Definition run_applies_options
    (w : world ref_collaborator unit) (b : string) (kw : gmap string nat) : Prop :=
  let w' := (run (H := ref_algorithm) (VBackend b) kw w).2 in
  exists l q, _quantum_instance w' = VInstance l /\ heap w' !! l = Some q
              /\ ref_backend q = b
              /\ forall k x, kw !! k = Some x -> ref_config q !! k = Some x.

(** * Properties *)

Section Properties.

Context {Backend OptVal : Type} {C : Collaborator Backend OptVal}.
Context {Attrs Result : Type}.

Local Abbreviation kwargs := (gmap string OptVal) (only parsing).
Local Abbreviation pyval := (value Backend) (only parsing).
Local Abbreviation world := (world C Attrs) (only parsing).
Local Abbreviation algorithm := (QuantumAlgorithm C Attrs Result) (only parsing).

(** Unfolds the methods down to functions on worlds. *)
Ltac py_unfold :=
  unfold exec, run, __init__, backend_setter, set_backend, backend,
    quantum_instance_setter, quantum_instance, QuantumInstance, set_config,
    get_backend, store, raise, mbind, M_bind, mret, M_ret in *.

Ltac py := py_unfold; cbn in *.

(** ** Storing and wrapping *)

Lemma store_spec (v : pyval) (w : world) :
  store v w = (Return tt, World (heap w) v (attrs w)).
Proof. reflexivity. Qed.

Lemma fresh_loc_unused (w : world) : heap w !! fresh (dom (heap w)) = None.
Proof. apply not_elem_of_dom, is_fresh. Qed.

(** The context setter, given a reference or [None], stores it. *)
Lemma quantum_instance_setter_ref (v : pyval) (w : world) :
  (forall b, v <> VBackend b) ->
  quantum_instance_setter v w = (Return tt, World (heap w) v (attrs w)).
Proof. intros Hv. destruct v; py; try done. by destruct (Hv b). Qed.

(** The context setter, given a backend, stores a new context made for it,
    or raises what the constructor raises and stores nothing. *)
Lemma quantum_instance_setter_backend (b : Backend) (w : world) :
  quantum_instance_setter (VBackend b) w =
    match qi_init b with
    | Return q => (Return tt, with_new_context w q)
    | Raise e => (Raise e, w)
    end.
Proof. py. by destruct (qi_init b). Qed.

Lemma no_kwargs_no_clash (params : list string) :
  kwargs_clash params (∅ : kwargs) = false.
Proof.
  unfold kwargs_clash. induction params as [|p params IH]; [done|].
  cbn [existsb]. rewrite IH, bool_decide_eq_false_2; [done|].
  rewrite lookup_empty. by intros [? [=]].
Qed.

(** A keyword of [set_backend]'s own parameters: the call raises and
    nothing is made or stored. *)
Lemma set_backend_clash (b : Backend) (kw : kwargs) (w : world) :
  kwargs_clash set_backend_params kw = true ->
  set_backend b kw w = (Raise TypeError, w).
Proof.
  intros Hclash. unfold set_backend, bind_kwargs, mbind, M_bind.
  by rewrite Hclash.
Qed.

(** Otherwise [set_backend] makes a context for the backend, stores it,
    then configures it; an exception of [set_config] leaves it stored. *)
Lemma set_backend_spec (b : Backend) (kw : kwargs) (w : world) :
  kwargs_clash set_backend_params kw = false ->
  set_backend b kw w =
    match qi_init b with
    | Return q =>
        let r := qi_set_config kw q in (r.1, with_new_context w r.2)
    | Raise e => (Raise e, w)
    end.
Proof.
  intros Hclash. unfold set_backend, bind_kwargs, mbind at 1, M_bind at 1.
  rewrite Hclash. py. destruct (qi_init b) as [q|e]; cbn; [|done].
  rewrite lookup_insert_eq. cbn. unfold with_new_context.
  by rewrite insert_insert_eq.
Qed.

Lemma backend_setter_spec (b : Backend) (w : world) :
  backend_setter b w =
    match qi_init b with
    | Return q =>
        let r := qi_set_config ∅ q in (r.1, with_new_context w r.2)
    | Raise e => (Raise e, w)
    end.
Proof. apply set_backend_spec, no_kwargs_no_clash. Qed.

(** ** The missing-context check *)

(** C1: when the stored context is absent, [run] without a context raises
    the missing-context [ValueError] whatever the subclass routine is, and
    leaves the world as it was: the stored context is still absent. *)
Theorem run_missing_context (A : algorithm) (kw : kwargs) (w : world) :
  _quantum_instance w = VNone ->
  run VNone kw w = (Raise (ValueError missing_context), w)
  /\ _quantum_instance (run VNone kw w).2 = VNone.
Proof.
  intros Hnone. assert (Hrun : run VNone kw w = (Raise (ValueError missing_context), w)).
  { py. by rewrite Hnone. }
  by rewrite Hrun.
Qed.

(** ** What [run] does, by argument *)

Lemma run_unfold (A : algorithm) (v : pyval) (kw : kwargs) (w : world) :
  run v kw w =
    if is_None v && is_None (_quantum_instance w)
    then (Raise (ValueError missing_context), w)
    else match match v with
               | VBackend b => set_backend b kw w
               | VNone => (Return tt, w)
               | VInstance _ => quantum_instance_setter v w
               end with
         | (Return _, w') => _run w'
         | (Raise e, w') => (Raise e, w')
         end.
Proof.
  unfold run, mbind, M_bind, mret, M_ret, raise, quantum_instance.
  destruct v; cbn; try done. by destruct (is_None (_quantum_instance w)).
Qed.

Lemma run_none (A : algorithm) (kw : kwargs) (w : world) :
  _quantum_instance w <> VNone -> run VNone kw w = _run w.
Proof.
  intros Hsome. rewrite run_unfold. by destruct (_quantum_instance w).
Qed.

Lemma run_instance (A : algorithm) (l : loc) (kw : kwargs) (w : world) :
  run (VInstance l) kw w = _run (World (heap w) (VInstance l) (attrs w)).
Proof. by rewrite run_unfold. Qed.

Lemma run_backend_clash (A : algorithm) (b : Backend) (kw : kwargs)
    (w : world) :
  kwargs_clash set_backend_params kw = true ->
  run (VBackend b) kw w = (Raise TypeError, w).
Proof.
  intros Hclash. rewrite run_unfold. cbn [is_None andb].
  by rewrite set_backend_clash.
Qed.

Lemma run_backend (A : algorithm) (b : Backend) (kw : kwargs) (w : world) :
  kwargs_clash set_backend_params kw = false ->
  run (VBackend b) kw w =
    match qi_init b with
    | Return q =>
        let r := qi_set_config kw q in
        let w' := with_new_context w r.2 in
        match r.1 with
        | Return _ => _run w'
        | Raise e => (Raise e, w')
        end
    | Raise e => (Raise e, w)
    end.
Proof.
  intros Hclash. rewrite run_unfold. cbn [is_None andb].
  rewrite set_backend_spec by done.
  destruct (qi_init b) as [q|e]; [|done]. cbn.
  by destruct (qi_set_config kw q).1.
Qed.

(** C2: [run] hands over to the subclass routine only in a world whose
    stored context is present.  Whatever the routine is, either [run] is
    the routine started in one such world, or [run] raises without the
    routine having any say. *)
Theorem run_delegates_with_context (v : pyval) (kw : kwargs) (w : world) :
  (exists w', _quantum_instance w' <> VNone
              /\ forall A : algorithm, run v kw w = _run w')
  \/ (exists e w', forall A : algorithm, run v kw w = (Raise e, w')).
Proof.
  destruct v as [|b|l].
  - destruct (_quantum_instance w) eqn:Hstored.
    + right. eexists _, _. intros A. rewrite run_unfold, Hstored. reflexivity.
    + left. exists w. split; [congruence|]. intros A. apply run_none. congruence.
    + left. exists w. split; [congruence|]. intros A. apply run_none. congruence.
  - destruct (kwargs_clash set_backend_params kw) eqn:Hclash.
    { right. eexists _, _. intros A. by apply run_backend_clash. }
    destruct (qi_init b) as [q|e] eqn:Hinit.
    + destruct (qi_set_config kw q).1 as [[]|e] eqn:Hcfg.
      * left. eexists. split; [|intros A; rewrite run_backend, Hinit by done;
          cbn; rewrite Hcfg; reflexivity]. done.
      * right. eexists _, _. intros A. rewrite run_backend, Hinit by done. cbn.
        rewrite Hcfg. reflexivity.
    + right. eexists _, _. intros A. rewrite run_backend, Hinit by done.
      reflexivity.
  - left. eexists. split; [|intros A; apply run_instance]. done.
Qed.

(** C3: [run] given a reference to a context stores that very reference
    and hands over: no context is created or configured on the way, and the
    options passed alongside play no part. *)
Theorem run_with_context_stores_it (A : algorithm) (l : loc) (w : world) :
  exists w', _quantum_instance w' = VInstance l
             /\ heap w' = heap w /\ attrs w' = attrs w
             /\ forall kw : kwargs, run (VInstance l) kw w = _run w'.
Proof.
  exists (World (heap w) (VInstance l) (attrs w)).
  do 3 (split; [reflexivity|]). intros kw. apply run_instance.
Qed.

(** ** Reading the backend *)

Lemma backend_spec (w : world) (l : loc) (q : QIState) :
  _quantum_instance w = VInstance l -> heap w !! l = Some q ->
  backend w = (Return (qi_backend q), w).
Proof. intros Hstored Hl. py. by rewrite Hstored; cbn; rewrite Hl. Qed.

Lemma backend_pure (w : world) : backend w = ((backend w).1, w).
Proof.
  py. destruct (_quantum_instance w) as [|b|l]; cbn; try done.
  by destruct (heap w !! l).
Qed.

Lemma with_new_context_backend (w : world) (q : QIState) :
  backend (with_new_context w q) = (Return (qi_backend q), with_new_context w q).
Proof. apply (backend_spec _ (fresh (dom (heap w)))); [done|]. apply lookup_insert_eq. Qed.

Lemma with_new_context_frame (w : world) (q : QIState) (l0 : loc) (q0 : QIState) :
  heap w !! l0 = Some q0 -> heap (with_new_context w q) !! l0 = Some q0.
Proof.
  intros Hl0. cbn. rewrite lookup_insert_ne; [done|].
  intros <-. by rewrite fresh_loc_unused in Hl0.
Qed.

(** C10: with no stored context, reading [backend] raises: the getter
    asks [None] for its [backend] attribute. *)
Theorem backend_without_context (w : world) :
  _quantum_instance w = VNone ->
  backend w =
    (Raise (AttributeError "'NoneType' object has no attribute 'backend'"), w).
Proof. intros Hnone. py. by rewrite Hnone. Qed.

(** ** Supplying a backend *)

(** C4, as the code has it: the backend setter stores a context newly made
    for the backend and configured with no options, which depends on the
    backend alone; [backend] then reads the new backend.  The contexts that
    existed, the one stored before among them, are left as they were. *)
Theorem backend_setter_makes_new_context (L : CollaboratorLaws C)
    (b : Backend) (w : world) (q q' : QIState) :
  qi_init b = Return q -> qi_set_config ∅ q = (Return tt, q') ->
  let w' := with_new_context w q' in
  backend_setter b w = (Return tt, w')
  /\ heap w !! fresh (dom (heap w)) = None
  /\ (forall l0 q0, heap w !! l0 = Some q0 -> heap w' !! l0 = Some q0)
  /\ backend w' = (Return b, w').
Proof.
  intros Hinit Hcfg w'. split; [|split; [|split]].
  - rewrite backend_setter_spec, Hinit. cbn. by rewrite Hcfg.
  - apply fresh_loc_unused.
  - intros l0 q0. apply with_new_context_frame.
  - unfold w'. rewrite with_new_context_backend. do 2 f_equal.
    replace q' with (qi_set_config ∅ q).2 by by rewrite Hcfg.
    rewrite qi_backend_set_config. by apply qi_backend_init.
Qed.

(** C5, as the code has it: [run] given a backend and options none of
    which is named [backend] or [self], the parameters of [set_backend],
    makes a new context for the backend, applies the options to it with
    [set_config], stores it and hands over; in the world the routine starts
    in, the stored context is that configured context and [backend] reads
    the backend given. *)
Theorem run_with_backend (L : CollaboratorLaws C) (A : algorithm)
    (b : Backend) (kw : kwargs) (w : world) (q q' : QIState) :
  kwargs_clash set_backend_params kw = false ->
  qi_init b = Return q -> qi_set_config kw q = (Return tt, q') ->
  let l := fresh (dom (heap w)) in
  let w' := with_new_context w q' in
  run (VBackend b) kw w = _run w'
  /\ heap w !! l = None
  /\ _quantum_instance w' = VInstance l /\ heap w' !! l = Some q'
  /\ backend w' = (Return b, w').
Proof.
  intros Hclash Hinit Hcfg l w'. split; [|split; [|split; [|split]]].
  - rewrite run_backend, Hinit by done. cbn. by rewrite Hcfg.
  - apply fresh_loc_unused.
  - done.
  - apply lookup_insert_eq.
  - unfold w'. rewrite with_new_context_backend. do 2 f_equal.
    replace q' with (qi_set_config kw q).2 by by rewrite Hcfg.
    rewrite qi_backend_set_config. by apply qi_backend_init.
Qed.

(** C6: the context setter given a backend stores a new context, as the
    constructor makes it for that backend and with nothing configured
    after; [backend] then reads the backend given. *)
Theorem setter_wraps_backend (L : CollaboratorLaws C)
    (b : Backend) (w : world) (q : QIState) :
  qi_init b = Return q ->
  let l := fresh (dom (heap w)) in
  let w' := with_new_context w q in
  quantum_instance_setter (VBackend b) w = (Return tt, w')
  /\ heap w !! l = None
  /\ _quantum_instance w' = VInstance l /\ heap w' !! l = Some q
  /\ backend w' = (Return b, w').
Proof.
  intros Hinit l w'. split; [|split; [|split; [|split]]].
  - by rewrite quantum_instance_setter_backend, Hinit.
  - apply fresh_loc_unused.
  - done.
  - apply lookup_insert_eq.
  - unfold w'. rewrite with_new_context_backend. do 2 f_equal.
    by apply qi_backend_init.
Qed.

(** ** Construction *)

Lemma init_instance (l : loc) (w : world) :
  __init__ (VInstance l) w = (Return tt, World (heap w) (VInstance l) (attrs w)).
Proof. reflexivity. Qed.

Lemma init_without_context (v : pyval) (w : world) :
  truthy v = false ->
  __init__ v w = (Return tt, World (heap w) VNone (attrs w)).
Proof. intros Hv. unfold __init__, mbind, M_bind. by rewrite store_spec, Hv. Qed.

(** Constructed without a context, an instance cannot [run] without one. *)
Lemma run_after_bare_init (A : algorithm) (kw : kwargs) (w : world) :
  let w1 := (__init__ VNone w).2 in
  run VNone kw w1 = (Raise (ValueError missing_context), w1).
Proof.
  intros w1. unfold w1. rewrite init_without_context by done.
  by rewrite run_unfold.
Qed.

(** C7: an instance constructed with a context has it stored, and [run]
    without argument is then the subclass routine: when the routine returns
    a result, [run] returns that result. *)
Theorem run_after_init (A : algorithm) (l : loc) (kw : kwargs)
    (w0 w2 : world) (d : Result) :
  let w1 := World (heap w0) (VInstance l) (attrs w0) in
  _run w1 = (Return d, w2) ->
  __init__ (VInstance l) w0 = (Return tt, w1)
  /\ run VNone kw w1 = _run w1
  /\ run VNone kw w1 = (Return d, w2).
Proof.
  intros w1 Hroutine.
  assert (Hrun : run VNone kw w1 = _run w1) by by apply run_none.
  split; [apply init_instance|]. split; [done|]. by rewrite Hrun.
Qed.

(** ** The stored context is never a backend *)

Lemma with_new_context_ok (w : world) (q : QIState) :
  context_ok (with_new_context w q).
Proof. unfold context_ok. cbn. by rewrite lookup_insert_eq. Qed.

Lemma store_arg_ok (v : pyval) (w : world) :
  (forall b, v <> VBackend b) -> arg_ok v w ->
  context_ok (World (heap w) v (attrs w)).
Proof. intros Hv Hok. destruct v; try done. by destruct (Hv b). Qed.

Lemma quantum_instance_setter_ok (v : pyval) (w : world) :
  context_ok w -> arg_ok v w -> context_ok (quantum_instance_setter v w).2.
Proof.
  intros Hw Hv. destruct v as [|b|l].
  - by rewrite quantum_instance_setter_ref.
  - rewrite quantum_instance_setter_backend.
    destruct (qi_init b); [apply with_new_context_ok|done].
  - by rewrite quantum_instance_setter_ref.
Qed.

Lemma set_backend_ok (b : Backend) (kw : kwargs) (w : world) :
  context_ok w -> context_ok (set_backend b kw w).2.
Proof.
  intros Hw. destruct (kwargs_clash set_backend_params kw) eqn:Hclash;
    [by rewrite set_backend_clash|]. rewrite set_backend_spec by done.
  destruct (qi_init b) as [q|e]; [|done]. apply with_new_context_ok.
Qed.

Lemma init_ok (v : pyval) (w : world) :
  arg_ok v w -> context_ok (__init__ v w).2.
Proof.
  intros Hv. unfold __init__, mbind, M_bind. rewrite store_spec.
  destruct (truthy v); [|done].
  apply quantum_instance_setter_ok; [done|by destruct v].
Qed.

Section Routine.

Context (A : algorithm).
Hypothesis routine_ok : forall w : world, context_ok w -> context_ok (_run w).2.

Lemma run_ok (v : pyval) (kw : kwargs) (w : world) :
  context_ok w -> arg_ok v w -> context_ok (run v kw w).2.
Proof.
  intros Hw Hv. rewrite run_unfold.
  destruct (is_None v && is_None (_quantum_instance w)); [done|].
  destruct v as [|b|l].
  - by apply routine_ok.
  - pose proof (set_backend_ok b kw w Hw) as Hset.
    destruct (set_backend b kw w) as [[[]|e] w']; [by apply routine_ok|done].
  - rewrite quantum_instance_setter_ref by done. by apply routine_ok.
Qed.

Lemma exec_ok (op : operation Backend OptVal) (w : world) :
  context_ok w \/ (exists v, op = Init v) -> op_ok op w ->
  context_ok (exec op w).2.
Proof.
  intros Hw Hop. destruct op as [v|v kw|v|b kw|b]; cbn [exec].
  - by apply init_ok.
  - destruct Hw as [Hw|[? [=]]]. pose proof (run_ok v kw w Hw Hop) as Hrun.
    unfold mbind, M_bind. by destruct (run v kw w) as [[d|e] w'].
  - destruct Hw as [Hw|[? [=]]]. by apply quantum_instance_setter_ok.
  - destruct Hw as [Hw|[? [=]]]. by apply set_backend_ok.
  - destruct Hw as [Hw|[? [=]]]. by apply set_backend_ok.
Qed.

Lemma reachable_ok (w : world) : reachable w -> context_ok w.
Proof.
  induction 1 as [v w Hv|op w Hreach IH Hop].
  - apply exec_ok; [right; by exists v|done].
  - apply exec_ok; [by left|done].
Qed.

End Routine.

(** C9: every operation leaves the stored context [None] or a reference
    to a [QuantumInstance] object that exists, never a backend, whether it
    returns or raises: the constructor from any world, the others from a
    world where this holds.  The subclass routine is to keep it too. *)
Theorem stored_context_never_a_backend (A : algorithm)
    (op : operation Backend OptVal) (w : world) :
  (forall w0 : world, context_ok w0 -> context_ok (_run w0).2) ->
  context_ok w \/ (exists v, op = Init v) ->
  op_ok op w ->
  context_ok (exec op w).2
  /\ forall b, _quantum_instance (exec op w).2 <> VBackend b.
Proof.
  intros Hroutine Hw Hop.
  pose proof (exec_ok A Hroutine op w Hw Hop) as Hok.
  split; [done|]. intros b Hb. unfold context_ok in Hok. by rewrite Hb in Hok.
Qed.

(** ** The backend read is the backend last supplied *)

Lemma with_new_context_reads (L : CollaboratorLaws C)
    (b : Backend) (kw : kwargs) (w : world) (q : QIState) :
  qi_init b = Return q ->
  let w' := with_new_context w (qi_set_config kw q).2 in
  backend w' = (Return b, w').
Proof.
  intros Hinit w'. unfold w'. rewrite with_new_context_backend.
  by rewrite qi_backend_set_config, (qi_backend_init b q).
Qed.

(** What [backend] reads once a reference to an existing context is stored. *)
Lemma stored_reference_reads (l : loc) (w : world) :
  arg_ok (VInstance l) w ->
  (backend (World (heap w) (VInstance l) (attrs w))).1
  = match qi_backend <$> heap w !! l with
    | Some b => Return b
    | None => (backend w).1
    end.
Proof.
  intros [q Hl]. rewrite Hl. cbn [fmap option_fmap option_map].
  by rewrite (backend_spec _ l q).
Qed.

(** The context setter given a backend: [backend] reads it when the
    constructor returns, and what it read before when it raises. *)
Lemma quantum_instance_setter_reads (L : CollaboratorLaws C)
    (b : Backend) (w : world) :
  (backend (quantum_instance_setter (VBackend b) w).2).1
  = match wrapped b with
    | Some b' => Return b'
    | None => (backend w).1
    end.
Proof.
  rewrite quantum_instance_setter_backend. unfold wrapped.
  destruct (qi_init b) as [q|e] eqn:Hinit; [|done]. cbn [snd].
  rewrite with_new_context_backend. by rewrite (qi_backend_init b q).
Qed.

(** [set_backend]: [backend] reads the backend given as soon as the
    constructor has returned, even if [set_config] raises; and what it read
    before when the options do not bind or the constructor raises. *)
Lemma set_backend_reads (L : CollaboratorLaws C)
    (b : Backend) (kw : kwargs) (w : world) :
  (backend (set_backend b kw w).2).1
  = match (if kwargs_clash set_backend_params kw then None else wrapped b) with
    | Some b' => Return b'
    | None => (backend w).1
    end.
Proof.
  destruct (kwargs_clash set_backend_params kw) eqn:Hclash;
    [by rewrite set_backend_clash|].
  rewrite set_backend_spec by done. unfold wrapped.
  destruct (qi_init b) as [q|e] eqn:Hinit; [|done]. cbn [snd].
  by rewrite (with_new_context_reads L b kw w q Hinit).
Qed.

Lemma exec_all_snoc (A : algorithm) (ops : list (operation Backend OptVal))
    (op : operation Backend OptVal) (w : world) :
  exec_all (ops ++ [op]) w = (exec op (exec_all ops w)).2.
Proof. revert w. induction ops as [|op0 ops IH]; intros w; [done|apply IH]. Qed.

Lemma last_backend_snoc (A : algorithm) (ops : list (operation Backend OptVal))
    (op : operation Backend OptVal) (w : world) (cur : outcome Backend) :
  last_backend (ops ++ [op]) w cur
  = match installed op (exec_all ops w) with
    | Some b => Return b
    | None => last_backend ops w cur
    end.
Proof.
  revert w cur. induction ops as [|op0 ops IH]; intros w cur; [done|apply IH].
Qed.

Section RoutineFrame.

Context (L : CollaboratorLaws C) (A : algorithm).
Hypothesis routine_frame :
  forall w0 : world, (backend (_run w0).2).1 = (backend w0).1.

Lemma run_reads (v : pyval) (kw : kwargs) (w : world) :
  arg_ok v w ->
  (backend (run v kw w).2).1
  = match installed (Run v kw) w with
    | Some b => Return b
    | None => (backend w).1
    end.
Proof.
  intros Hv. destruct v as [|b|l]; cbn [installed].
  - rewrite run_unfold. cbn [is_None andb].
    destruct (is_None (_quantum_instance w)); [done|]. apply routine_frame.
  - pose proof (set_backend_reads L b kw w) as Hset.
    rewrite run_unfold. cbn [is_None andb].
    destruct (set_backend b kw w) as [[[]|e] w']; cbn [snd] in *; [|done].
    by rewrite routine_frame.
  - rewrite run_instance, routine_frame. by apply stored_reference_reads.
Qed.

Lemma exec_reads (op : operation Backend OptVal) (w : world) :
  mutation_ok op w ->
  (backend (exec op w).2).1
  = match installed op w with
    | Some b => Return b
    | None => (backend w).1
    end.
Proof.
  intros Hop. destruct op as [v|v kw|v|b kw|b]; cbn [exec].
  - done.
  - pose proof (run_reads v kw w Hop) as Hrun.
    unfold mbind, M_bind. by destruct (run v kw w) as [[d|e] w'].
  - destruct v as [|b|l]; [done| |].
    + apply quantum_instance_setter_reads, L.
    + rewrite quantum_instance_setter_ref by done.
      by apply stored_reference_reads.
  - apply set_backend_reads, L.
  - unfold backend_setter. rewrite set_backend_reads by exact L.
    by rewrite no_kwargs_no_clash.
Qed.

Lemma exec_all_reads (ops : list (operation Backend OptVal)) (w : world) :
  mutations_ok ops w ->
  (backend (exec_all ops w)).1 = last_backend ops w (backend w).1.
Proof.
  revert w. induction ops as [|op ops IH]; intros w Hops; [done|].
  destruct Hops as [Hop Hops]. cbn [exec_all last_backend].
  rewrite IH by done. by rewrite exec_reads.
Qed.

End RoutineFrame.

(** C8: after any sequence of calls that supply a backend or a context
    ([run], the context setter, [set_backend], the backend setter),
    whether they return or raise, [backend] reads the backend installed by
    the last call that installed one: the backend it supplied, if its
    options bound and the collaborator made a context for it, or the
    backend of the context it supplied.  In particular, when the last call
    of the sequence installs a backend, [backend] reads that one.  The
    subclass routine is to leave the backend of the stored context alone. *)
Theorem backend_reads_last_mutation (L : CollaboratorLaws C) (A : algorithm)
    (ops : list (operation Backend OptVal)) (w : world) :
  (forall w0 : world, (backend (_run w0).2).1 = (backend w0).1) ->
  mutations_ok ops w ->
  let w' := exec_all ops w in
  backend w' = (last_backend ops w (backend w).1, w')
  /\ forall (ops0 : list (operation Backend OptVal)) op b,
       ops = (ops0 ++ [op])%list -> installed op (exec_all ops0 w) = Some b ->
       backend w' = (Return b, w').
Proof.
  intros Hframe Hops w'.
  assert (Hreads : backend w' = (last_backend ops w (backend w).1, w')).
  { rewrite backend_pure. f_equal. by apply exec_all_reads. }
  split; [exact Hreads|]. intros ops0 op b -> Hop.
  by rewrite Hreads, last_backend_snoc, Hop.
Qed.

(** * Further properties *)

(** ** Construction, the other cases *)

(** X1: constructed with an argument that is false in [if], [None] in
    particular, an instance has no stored context whatever the attribute
    held, and no context has been made; [run] without a context then
    raises the missing-context error and [backend] an [AttributeError]. *)
Theorem init_falsy_stores_nothing (A : algorithm) (v : pyval) (kw : kwargs)
    (w : world) :
  truthy v = false ->
  let w1 := World (heap w) VNone (attrs w) in
  __init__ v w = (Return tt, w1)
  /\ run VNone kw w1 = (Raise (ValueError missing_context), w1)
  /\ backend w1
     = (Raise (AttributeError "'NoneType' object has no attribute 'backend'"), w1).
Proof.
  intros Hv w1. split; [by apply init_without_context|].
  split; [by rewrite run_unfold|done].
Qed.

Lemma init_truthy (v : pyval) (w : world) :
  truthy v = true ->
  __init__ v w = quantum_instance_setter v (World (heap w) VNone (attrs w)).
Proof. intros Hv. unfold __init__, mbind, M_bind. by rewrite store_spec, Hv. Qed.

(** X2: constructed with a backend that is true in [if] and that the
    collaborator accepts, an instance stores a new context made for it:
    [backend] reads that backend and [run] without a context is the
    subclass routine. *)
Theorem init_wraps_backend (L : CollaboratorLaws C) (A : algorithm)
    (b : Backend) (kw : kwargs) (w : world) (q : QIState) :
  backend_truthy b = true -> qi_init b = Return q ->
  let w1 := with_new_context (World (heap w) VNone (attrs w)) q in
  __init__ (VBackend b) w = (Return tt, w1)
  /\ heap w !! fresh (dom (heap w)) = None
  /\ backend w1 = (Return b, w1)
  /\ run VNone kw w1 = _run w1.
Proof.
  intros Hb Hinit w1. split; [|split; [|split]].
  - rewrite init_truthy by done.
    by rewrite quantum_instance_setter_backend, Hinit.
  - apply fresh_loc_unused.
  - unfold w1. rewrite with_new_context_backend.
    by rewrite (qi_backend_init b q).
  - by apply run_none.
Qed.

(** X3: constructed with a backend for which the collaborator's
    constructor raises, [__init__] raises the same and the stored context
    is [None], whatever the attribute held. *)
Theorem init_constructor_raises (b : Backend) (w : world) (e : exn) :
  backend_truthy b = true -> qi_init b = Raise e ->
  __init__ (VBackend b) w = (Raise e, World (heap w) VNone (attrs w)).
Proof.
  intros Hb Hinit. rewrite init_truthy by done.
  by rewrite quantum_instance_setter_backend, Hinit.
Qed.

(** ** When the collaborator raises *)

Lemma kwargs_clash_set_backend (kw : kwargs) :
  kwargs_clash set_backend_params kw = true
  <-> is_Some (kw !! "self") \/ is_Some (kw !! "backend").
Proof.
  unfold kwargs_clash. cbn [set_backend_params existsb].
  by rewrite orb_false_r, orb_true_iff, !bool_decide_eq_true.
Qed.

(** X13: an option named [backend] (or [self]) clashes with the
    parameters of [set_backend]: [set_backend] and [run] with a backend
    raise [TypeError] there, before any context is made, and leave the
    world as it was; [run] does so whatever the subclass routine is. *)
Theorem options_clash_raises (b : Backend) (kw : kwargs) (w : world) :
  is_Some (kw !! "self") \/ is_Some (kw !! "backend") ->
  set_backend b kw w = (Raise TypeError, w)
  /\ forall A : algorithm, run (VBackend b) kw w = (Raise TypeError, w).
Proof.
  intros Hclash%kwargs_clash_set_backend.
  split; [by apply set_backend_clash|]. intros A. by apply run_backend_clash.
Qed.

(** X4: when the collaborator's constructor raises for a backend, each
    call that supplies that backend (the context setter, [set_backend], the
    backend setter, [run]), with options that bind, raises the same
    exception and leaves the world as it was; [run] does so whatever the
    subclass routine is. *)
Theorem constructor_raises_nothing_changes (A : algorithm) (b : Backend)
    (kw : kwargs) (w : world) (e : exn) (op : operation Backend OptVal) :
  kwargs_clash set_backend_params kw = false ->
  qi_init b = Raise e ->
  op ∈ [SetQuantumInstance (VBackend b); SetBackendWith b kw; SetBackend b;
        Run (VBackend b) kw] ->
  exec op w = (Raise e, w).
Proof.
  intros Hclash Hinit Hop.
  repeat (apply elem_of_cons in Hop as [->|Hop]); cbn [exec].
  - by rewrite quantum_instance_setter_backend, Hinit.
  - by rewrite set_backend_spec, Hinit.
  - by rewrite backend_setter_spec, Hinit.
  - unfold mbind, M_bind. by rewrite run_backend, Hinit.
  - by apply elem_of_nil in Hop.
Qed.

(** X5: when the options bind and [set_config] raises on the context
    just made, [set_backend] and [run] raise the same, [run] without
    starting the subclass routine; but the new context is stored by then:
    the stored context is a new object, the contexts that existed are as
    they were, and [backend] reads the backend supplied. *)
Theorem set_config_raises_context_replaced (L : CollaboratorLaws C)
    (b : Backend) (kw : kwargs) (w : world) (q : QIState) (e : exn) :
  kwargs_clash set_backend_params kw = false ->
  qi_init b = Return q -> (qi_set_config kw q).1 = Raise e ->
  let l := fresh (dom (heap w)) in
  exists w',
    set_backend b kw w = (Raise e, w')
    /\ (forall A : algorithm, run (VBackend b) kw w = (Raise e, w'))
    /\ heap w !! l = None
    /\ _quantum_instance w' = VInstance l
    /\ (forall l0 q0, heap w !! l0 = Some q0 -> heap w' !! l0 = Some q0)
    /\ backend w' = (Return b, w').
Proof.
  intros Hclash Hinit Hcfg l.
  exists (with_new_context w (qi_set_config kw q).2).
  split; [|split; [|split; [|split; [|split]]]].
  - rewrite set_backend_spec, Hinit by done. cbn zeta. by rewrite Hcfg.
  - intros A. rewrite run_backend, Hinit by done. cbn zeta. by rewrite Hcfg.
  - apply fresh_loc_unused.
  - done.
  - intros l0 q0. apply with_new_context_frame.
  - by apply with_new_context_reads.
Qed.

(** ** Contexts are made, never changed *)

Lemma with_new_context_grows (w : world) (q : QIState) :
  heap w ⊆ heap (with_new_context w q).
Proof. apply insert_subseteq, fresh_loc_unused. Qed.

Lemma quantum_instance_setter_grows (v : pyval) (w : world) :
  heap w ⊆ heap (quantum_instance_setter v w).2.
Proof.
  destruct v as [|b|l]; [by rewrite quantum_instance_setter_ref| |
                         by rewrite quantum_instance_setter_ref].
  rewrite quantum_instance_setter_backend.
  destruct (qi_init b); [apply with_new_context_grows|done].
Qed.

Lemma set_backend_grows (b : Backend) (kw : kwargs) (w : world) :
  heap w ⊆ heap (set_backend b kw w).2.
Proof.
  destruct (kwargs_clash set_backend_params kw) eqn:Hclash;
    [by rewrite set_backend_clash|]. rewrite set_backend_spec by done.
  destruct (qi_init b); [apply with_new_context_grows|done].
Qed.

Lemma init_grows (v : pyval) (w : world) : heap w ⊆ heap (__init__ v w).2.
Proof.
  destruct (truthy v) eqn:Hv.
  - rewrite init_truthy by done.
    apply (quantum_instance_setter_grows v (World (heap w) VNone (attrs w))).
  - by rewrite init_without_context.
Qed.

Lemma run_grows (A : algorithm) (v : pyval) (kw : kwargs) (w : world) :
  (forall w0 : world, heap w0 ⊆ heap (_run w0).2) ->
  heap w ⊆ heap (run v kw w).2.
Proof.
  intros Hroutine. rewrite run_unfold.
  destruct (is_None v && is_None (_quantum_instance w)); [done|].
  assert (Hpre : forall r : outcome unit * world, heap w ⊆ heap r.2 ->
            heap w ⊆ heap (match r with
                           | (Return _, w') => _run w'
                           | (Raise e, w') => (Raise e, w')
                           end).2).
  { intros [[[]|e] w'] Hw'; [|done]. etrans; [exact Hw'|apply Hroutine]. }
  apply Hpre. destruct v as [|b|l].
  - done.
  - apply set_backend_grows.
  - apply quantum_instance_setter_grows.
Qed.

Lemma exec_grows (A : algorithm) (op : operation Backend OptVal) (w : world) :
  (forall w0 : world, heap w0 ⊆ heap (_run w0).2) ->
  heap w ⊆ heap (exec op w).2.
Proof.
  intros Hroutine. destruct op as [v|v kw|v|b kw|b]; cbn [exec].
  - apply init_grows.
  - pose proof (run_grows A v kw w Hroutine) as Hrun.
    unfold mbind, M_bind. by destruct (run v kw w) as [[d|e] w'].
  - apply quantum_instance_setter_grows.
  - apply set_backend_grows.
  - apply set_backend_grows.
Qed.

(** X6: over any sequence of calls, a context object that exists stays as
    it is: the class makes new contexts and configures those, it never
    reconfigures or drops one it was given or made earlier.  The subclass
    routine is to do the same. *)
Theorem calls_keep_existing_contexts (A : algorithm)
    (ops : list (operation Backend OptVal)) (w : world) (l : loc) (q : QIState) :
  (forall w0 : world, heap w0 ⊆ heap (_run w0).2) ->
  heap w !! l = Some q ->
  heap (exec_all ops w) !! l = Some q.
Proof.
  intros Hroutine. revert w. induction ops as [|op ops IH]; intros w Hl; [done|].
  cbn [exec_all]. apply IH.
  eapply lookup_weaken; [exact Hl|by apply exec_grows].
Qed.

(** ** Reading and running agree *)

(** X7: in a world an instance can reach, either no context is stored,
    and then [backend] raises [AttributeError] and [run] without a context
    raises the missing-context error; or the stored context refers to an
    existing object, and then [backend] returns its backend and [run]
    without a context is the subclass routine.  The subclass routine is to
    keep the stored context [None] or such a reference. *)
Theorem backend_reads_iff_run_starts (A : algorithm) (w : world) :
  (forall w0 : world, context_ok w0 -> context_ok (_run w0).2) ->
  reachable w ->
  (_quantum_instance w = VNone
   /\ backend w
      = (Raise (AttributeError "'NoneType' object has no attribute 'backend'"), w)
   /\ forall kw : kwargs, run VNone kw w = (Raise (ValueError missing_context), w))
  \/ (exists l q, _quantum_instance w = VInstance l /\ heap w !! l = Some q
      /\ backend w = (Return (qi_backend q), w)
      /\ forall kw : kwargs, run VNone kw w = _run w).
Proof.
  intros Hroutine Hreach.
  pose proof (reachable_ok A Hroutine w Hreach) as Hok. unfold context_ok in Hok.
  destruct (_quantum_instance w) as [|b|l] eqn:Hstored; [|done|].
  - left. split; [done|]. split.
    + unfold backend, quantum_instance, mbind, M_bind. by rewrite Hstored.
    + intros kw. by rewrite run_unfold, Hstored.
  - right. destruct Hok as [q Hl]. exists l, q. split; [done|]. split; [done|].
    split; [by apply (backend_spec w l)|].
    intros kw. apply run_none. by rewrite Hstored.
Qed.

(** ** Options *)

(** X8: the options passed to [run] count only with a backend: with a
    context or with no argument, [run] is the same whatever they are. *)
Theorem run_options_only_with_backend (A : algorithm) (v : pyval)
    (kw kw' : kwargs) (w : world) :
  (forall b, v <> VBackend b) -> run v kw w = run v kw' w.
Proof.
  intros Hv. rewrite !run_unfold. destruct v as [|b|l]; [done| |done].
  by destruct (Hv b).
Qed.

(** ** The abstract method *)

(** X9: with the body of the abstract method for subclass routine, [run]
    never returns a result; given a context it stores it all the same,
    then raises [NotImplementedError]. *)
Theorem run_abstract_raises (v : pyval) (kw : kwargs) (w : world) :
  (exists e w', run (Result := Result) (H := abstract_algorithm) v kw w = (Raise e, w'))
  /\ forall l, run (Result := Result) (H := abstract_algorithm) (VInstance l) kw w
               = (Raise (OtherError "NotImplementedError"),
                  World (heap w) (VInstance l) (attrs w)).
Proof.
  split; [|intros l; by rewrite run_instance].
  rewrite run_unfold.
  destruct (is_None v && is_None (_quantum_instance w)); [by eexists _, _|].
  destruct (match v with
            | VNone => (Return tt, w)
            | VBackend b => set_backend b kw w
            | VInstance _ => quantum_instance_setter v w
            end) as [[[]|e] w']; by eexists _, _.
Qed.

(** ** Setting, then getting *)

(** X10: a context, or [None], set through the [quantum_instance]
    property is what the property then reads, the very reference; no
    context is made. *)
Theorem quantum_instance_round_trip (v : pyval) (w : world) :
  (forall b, v <> VBackend b) ->
  (quantum_instance_setter v;; quantum_instance) w
  = (Return v, World (heap w) v (attrs w)).
Proof.
  intros Hv. unfold mbind at 1, M_bind at 1.
  by rewrite quantum_instance_setter_ref.
Qed.

(** ** [run] with an argument is a setter, then [run] without *)

(** X11: [run] with a backend is [set_backend] with the same options and
    then [run] without argument; [run] with a context is the context
    setter and then [run] without argument.  An exception of the first step
    is the exception of [run], and the second step never finds the context
    missing. *)
Theorem run_is_set_then_run (A : algorithm) (v : pyval) (kw kw' : kwargs)
    (w : world) :
  v <> VNone ->
  run v kw w
  = (match v with
     | VBackend b => set_backend b kw
     | _ => quantum_instance_setter v
     end;; run VNone kw') w.
Proof.
  intros Hv. unfold mbind at 1, M_bind at 1. destruct v as [|b|l]; [done| |].
  - destruct (kwargs_clash set_backend_params kw) eqn:Hclash;
      [by rewrite run_backend_clash, set_backend_clash|].
    rewrite run_backend, set_backend_spec by done.
    destruct (qi_init b) as [q|e]; [|done]. cbn zeta.
    destruct (qi_set_config kw q).1 as [[]|e]; [|done].
    by rewrite run_none.
  - rewrite run_instance, quantum_instance_setter_ref by done.
    by rewrite run_none.
Qed.

(** X12: to [run] with the context that is stored already is to [run]
    without argument. *)
Theorem run_with_stored_context (A : algorithm) (l : loc) (kw kw' : kwargs)
    (w : world) :
  _quantum_instance w = VInstance l ->
  run (VInstance l) kw w = run VNone kw' w.
Proof.
  intros Hstored. rewrite run_instance, run_none by by rewrite Hstored.
  f_equal. destruct w; cbn in *. by subst.
Qed.

End Properties.

(** * The properties at the reference collaborator *)

#[export] Instance ref_laws : CollaboratorLaws ref_collaborator.
Proof. split; [by intros b q [= <-]|done]. Qed.

Lemma ref_algorithm_keeps_world (w : world ref_collaborator unit) :
  (_run (QuantumAlgorithm := ref_algorithm) w).2 = w.
Proof.
  cbn. unfold mbind, M_bind. rewrite backend_pure.
  by destruct (backend w).1.
Qed.

Lemma ref_algorithm_frame (w : world ref_collaborator unit) :
  (backend (_run (QuantumAlgorithm := ref_algorithm) w).2).1 = (backend w).1.
Proof. by rewrite ref_algorithm_keeps_world. Qed.

Lemma ref_algorithm_ok (w : world ref_collaborator unit) :
  context_ok w -> context_ok (_run (QuantumAlgorithm := ref_algorithm) w).2.
Proof. by rewrite ref_algorithm_keeps_world. Qed.

Lemma run_missing_context_witness :
  _quantum_instance (ref_world false) = VNone
  /\ run (H := ref_algorithm) VNone {[ "optA" := 1 ]} (ref_world false)
     = (Raise (ValueError missing_context), ref_world false)
  /\ _quantum_instance
       (run (H := ref_algorithm) VNone {[ "optA" := 1 ]} (ref_world false)).2
     = VNone.
Proof.
  split; [reflexivity|].
  apply (run_missing_context ref_algorithm {[ "optA" := 1 ]} (ref_world false)).
  reflexivity.
Defined.

Lemma backend_without_context_witness :
  _quantum_instance (ref_world false) = VNone
  /\ backend (ref_world false)
     = (Raise (AttributeError "'NoneType' object has no attribute 'backend'"),
        ref_world false).
Proof.
  split; [reflexivity|].
  apply (backend_without_context (ref_world false)). reflexivity.
Defined.

(** C4 fails as stated: the stored context has [shots] set to 1; after
    [self.backend = "qpu"] the stored context is a new one with no option
    set. *)
Lemma backend_setter_resets_configuration :
  ~ backend_setter_keeps_configuration (ref_world true) "qpu".
Proof.
  intros Hkeeps.
  destruct (Hkeeps 1%positive (RefContext "sim" {[ "shots" := 1 ]}) eq_refl eq_refl)
    as (l' & q' & Hstored & Hl' & _ & Hconfig).
  vm_compute in Hstored. injection Hstored as <-.
  vm_compute in Hl'. injection Hl' as <-.
  apply (f_equal (fun m : gmap string nat => m !! "shots")) in Hconfig.
  vm_compute in Hconfig. discriminate Hconfig.
Qed.

Lemma backend_setter_makes_new_context_witness :
  let q := RefContext "qpu" ∅ in
  let w := ref_world true in
  let w' := with_new_context w q in
  (qi_init "qpu" = Return q /\ qi_set_config ∅ q = (Return tt, q))
  /\ backend_setter "qpu" w = (Return tt, w')
  /\ heap w !! fresh (dom (heap w)) = None
  /\ (forall l0 q0, heap w !! l0 = Some q0 -> heap w' !! l0 = Some q0)
  /\ backend w' = (Return "qpu", w').
Proof.
  intros q w w'.
  assert (Hinit : qi_init "qpu" = Return q) by reflexivity.
  assert (Hcfg : qi_set_config ∅ q = (Return tt, q)) by (vm_compute; reflexivity).
  split; [by split|].
  exact (backend_setter_makes_new_context (Attrs := unit) ref_laws "qpu" w q q
           Hinit Hcfg).
Defined.

(** C5 fails as stated: with an option named [backend], [run] raises
    [TypeError] at its call of [set_backend]; the stored context is still
    the one on [sim]. *)
Lemma run_drops_clashing_options :
  ~ run_applies_options (ref_world true) "qpu" {[ "backend" := 1 ]}.
Proof.
  intros (l & q & Hstored & Hl & Hbackend & _).
  vm_compute in Hstored. injection Hstored as <-.
  vm_compute in Hl. injection Hl as <-.
  discriminate Hbackend.
Qed.

(** [run] with a backend and [optA = 1]: the context stored when the
    routine starts is on that backend and has [optA] set to 1. *)
Lemma run_with_backend_witness :
  let kw : gmap string nat := {[ "optA" := 1 ]} in
  let q' : @QIState _ _ ref_collaborator := RefContext "qpu" kw in
  let w := ref_world true in
  let l := fresh (dom (heap w)) in
  let w' := with_new_context w q' in
  (kwargs_clash set_backend_params kw = false
   /\ qi_init "qpu" = Return (RefContext "qpu" ∅)
   /\ qi_set_config kw (RefContext "qpu" ∅) = (Return tt, q')
   /\ ref_config q' !! "optA" = Some 1)
  /\ run (H := ref_algorithm) (VBackend "qpu") kw w
     = _run (QuantumAlgorithm := ref_algorithm) w'
  /\ heap w !! l = None
  /\ _quantum_instance w' = VInstance l /\ heap w' !! l = Some q'
  /\ backend w' = (Return "qpu", w').
Proof.
  intros kw q' w l w'.
  assert (Hclash : kwargs_clash set_backend_params kw = false)
    by (vm_compute; reflexivity).
  assert (Hinit : qi_init "qpu" = Return (RefContext "qpu" ∅)) by reflexivity.
  assert (Hcfg : qi_set_config kw (RefContext "qpu" ∅) = (Return tt, q'))
    by (vm_compute; reflexivity).
  split; [split; [exact Hclash|split; [exact Hinit|
            split; [exact Hcfg|vm_compute; reflexivity]]]|].
  exact (run_with_backend ref_laws ref_algorithm "qpu" kw w (RefContext "qpu" ∅) q'
           Hclash Hinit Hcfg).
Defined.

Lemma setter_wraps_backend_witness :
  let q : @QIState _ _ ref_collaborator := RefContext "qpu" ∅ in
  let w := ref_world false in
  let l := fresh (dom (heap w)) in
  let w' := with_new_context w q in
  qi_init "qpu" = Return q
  /\ quantum_instance_setter (VBackend "qpu") w = (Return tt, w')
  /\ heap w !! l = None
  /\ _quantum_instance w' = VInstance l /\ heap w' !! l = Some q
  /\ backend w' = (Return "qpu", w').
Proof.
  intros q w l w'. split; [reflexivity|].
  apply (setter_wraps_backend (Attrs := unit) ref_laws "qpu" w q). reflexivity.
Defined.

Lemma run_after_init_witness :
  let w0 := ref_world false in
  let w1 := ref_world true in
  let d : gmap string string := {[ "backend" := "sim" ]} in
  _run (QuantumAlgorithm := ref_algorithm) w1 = (Return d, w1)
  /\ __init__ (VInstance 1%positive) w0 = (Return tt, w1)
  /\ run (H := ref_algorithm) VNone ∅ w1
     = _run (QuantumAlgorithm := ref_algorithm) w1
  /\ run (H := ref_algorithm) VNone ∅ w1 = (Return d, w1).
Proof.
  intros w0 w1 d.
  assert (Hroutine : _run (QuantumAlgorithm := ref_algorithm) w1 = (Return d, w1))
    by (vm_compute; reflexivity).
  split; [exact Hroutine|].
  exact (run_after_init ref_algorithm 1%positive ∅ w0 w1 d Hroutine).
Defined.

(** A client sets a context, calls [set_backend] with an option named
    [backend], which raises, then runs on [qpu] with [optA = 1], and sets
    the backend [aer]: [backend] reads [aer]. *)
Lemma backend_reads_last_mutation_witness :
  let ops := [SetQuantumInstance (VInstance 1%positive);
              SetBackendWith "ibmq" {[ "backend" := 1 ]};
              Run (VBackend "qpu") {[ "optA" := 1 ]};
              SetBackend "aer"] in
  let w := ref_world false in
  let w' := exec_all (H := ref_algorithm) ops w in
  mutations_ok (H := ref_algorithm) ops w
  /\ last_backend (H := ref_algorithm) ops w (backend w).1 = Return "aer"
  /\ backend w' = (last_backend (H := ref_algorithm) ops w (backend w).1, w')
  /\ backend w' = (Return "aer", w').
Proof.
  intros ops w w'.
  assert (Hops : mutations_ok (H := ref_algorithm) ops w)
    by (vm_compute; repeat split; eauto).
  split; [exact Hops|]. split; [vm_compute; reflexivity|].
  pose proof (backend_reads_last_mutation ref_laws ref_algorithm ops w
                ref_algorithm_frame Hops) as [Hreads Hlast].
  split; [exact Hreads|].
  apply (Hlast [SetQuantumInstance (VInstance 1%positive);
                SetBackendWith "ibmq" {[ "backend" := 1 ]};
                Run (VBackend "qpu") {[ "optA" := 1 ]}] (SetBackend "aer") "aer").
  - reflexivity.
  - vm_compute. reflexivity.
Defined.

Lemma stored_context_never_a_backend_witness :
  let op := Run (VBackend "qpu") {[ "optA" := 1 ]} in
  let w := ref_world true in
  context_ok w /\ op_ok op w
  /\ context_ok (exec (H := ref_algorithm) op w).2
  /\ forall b, _quantum_instance (exec (H := ref_algorithm) op w).2 <> VBackend b.
Proof.
  intros op w.
  assert (Hw : context_ok w) by (vm_compute; eauto).
  assert (Hop : op_ok op w) by exact I.
  split; [exact Hw|]. split; [exact Hop|].
  exact (stored_context_never_a_backend ref_algorithm op w ref_algorithm_ok
           (or_introl Hw) Hop).
Defined.

(** * The further properties at the reference collaborators *)

Lemma strict_laws : CollaboratorLaws strict_collaborator.
Proof.
  split.
  - intros b q. cbn. by destruct (String.eqb b "offline"); intros [= <-].
  - intros kw q. cbn. by case_bool_decide.
Qed.

Lemma ref_algorithm_grows (w : world ref_collaborator unit) :
  heap w ⊆ heap (_run (QuantumAlgorithm := ref_algorithm) w).2.
Proof. by rewrite ref_algorithm_keeps_world. Qed.

Lemma init_falsy_stores_nothing_witness :
  let kw : gmap string nat := {[ "optA" := 1 ]} in
  let w1 := ref_world false in
  truthy (C := ref_collaborator) VNone = false
  /\ __init__ VNone (ref_world true) = (Return tt, w1)
  /\ run (H := ref_algorithm) VNone kw w1 = (Raise (ValueError missing_context), w1)
  /\ backend w1
     = (Raise (AttributeError "'NoneType' object has no attribute 'backend'"), w1).
Proof.
  intros kw w1. split; [reflexivity|].
  exact (init_falsy_stores_nothing ref_algorithm VNone kw (ref_world true) eq_refl).
Defined.

Lemma init_wraps_backend_witness :
  let q : @QIState _ _ ref_collaborator := RefContext "qpu" ∅ in
  let w := ref_world true in
  let w1 := with_new_context (ref_world false) q in
  (backend_truthy "qpu" = true /\ qi_init "qpu" = Return q)
  /\ __init__ (VBackend "qpu") w = (Return tt, w1)
  /\ heap w !! fresh (dom (heap w)) = None
  /\ backend w1 = (Return "qpu", w1)
  /\ run (H := ref_algorithm) VNone ∅ w1
     = _run (QuantumAlgorithm := ref_algorithm) w1.
Proof.
  intros q w w1. split; [by split|].
  exact (init_wraps_backend ref_laws ref_algorithm "qpu" ∅ w q eq_refl eq_refl).
Defined.

Lemma init_constructor_raises_witness :
  let e := OtherError "QiskitError" in
  (backend_truthy (Collaborator := strict_collaborator) "offline" = true
   /\ qi_init (Collaborator := strict_collaborator) "offline" = Raise e)
  /\ __init__ (VBackend "offline") strict_world
     = (Raise e, World (C := strict_collaborator) (heap strict_world) VNone tt).
Proof.
  intros e. split; [by split|].
  exact (init_constructor_raises (C := strict_collaborator) (Attrs := unit)
           "offline" strict_world e eq_refl eq_refl).
Defined.

Lemma constructor_raises_nothing_changes_witness :
  let e := OtherError "QiskitError" in
  let kw : gmap string nat := {[ "shots" := 8 ]} in
  let op := Run (VBackend "offline") kw in
  (kwargs_clash set_backend_params kw = false
   /\ qi_init (Collaborator := strict_collaborator) "offline" = Raise e)
  /\ exec (H := strict_algorithm) op strict_world = (Raise e, strict_world).
Proof.
  intros e kw op.
  assert (Hclash : kwargs_clash set_backend_params kw = false)
    by (vm_compute; reflexivity).
  split; [split; [exact Hclash|reflexivity]|].
  apply (constructor_raises_nothing_changes strict_algorithm "offline" kw
           strict_world e op).
  - exact Hclash.
  - reflexivity.
  - do 3 apply list_elem_of_further. apply list_elem_of_here.
Defined.

Lemma set_config_raises_context_replaced_witness :
  let e := ValueError "unknown setting" in
  let kw : gmap string nat := {[ "optA" := 1 ]} in
  let q : @QIState _ _ strict_collaborator := RefContext "qpu" ∅ in
  let w := strict_world in
  let l := fresh (dom (heap w)) in
  (kwargs_clash set_backend_params kw = false
   /\ qi_init (Collaborator := strict_collaborator) "qpu" = Return q
   /\ qi_set_config (Collaborator := strict_collaborator) kw q = (Raise e, q))
  /\ exists w',
       set_backend "qpu" kw w = (Raise e, w')
       /\ (forall A : QuantumAlgorithm strict_collaborator unit (gmap string string),
             run (VBackend "qpu") kw w = (Raise e, w'))
       /\ heap w !! l = None
       /\ _quantum_instance w' = VInstance l
       /\ (forall l0 q0, heap w !! l0 = Some q0 -> heap w' !! l0 = Some q0)
       /\ backend w' = (Return "qpu", w').
Proof.
  intros e kw q w l.
  assert (Hclash : kwargs_clash set_backend_params kw = false)
    by (vm_compute; reflexivity).
  assert (Hinit : qi_init (Collaborator := strict_collaborator) "qpu" = Return q)
    by reflexivity.
  assert (Hcfg : qi_set_config (Collaborator := strict_collaborator) kw q
                 = (Raise e, q)) by (vm_compute; reflexivity).
  split; [split; [exact Hclash|by split]|].
  exact (set_config_raises_context_replaced (Result := gmap string string)
           strict_laws "qpu" kw w q e Hclash Hinit (f_equal fst Hcfg)).
Defined.

Lemma options_clash_raises_witness :
  let kw : gmap string nat := {[ "backend" := 1 ]} in
  let w := ref_world true in
  (is_Some (kw !! "self") \/ is_Some (kw !! "backend"))
  /\ set_backend "qpu" kw w = (Raise TypeError, w)
  /\ forall A : QuantumAlgorithm ref_collaborator unit (gmap string string),
       run (VBackend "qpu") kw w = (Raise TypeError, w).
Proof.
  intros kw w.
  assert (Hkw : is_Some (kw !! "self") \/ is_Some (kw !! "backend"))
    by (right; vm_compute; eauto).
  split; [exact Hkw|].
  exact (options_clash_raises (Result := gmap string string) "qpu" kw w Hkw).
Defined.

Lemma calls_keep_existing_contexts_witness :
  let ops := [SetBackend "qpu"; Run (VBackend "aer") {[ "optA" := 1 ]};
              SetQuantumInstance VNone] in
  let q : @QIState _ _ ref_collaborator := RefContext "sim" {[ "shots" := 1 ]} in
  let w := ref_world true in
  heap w !! 1%positive = Some q
  /\ heap (exec_all (H := ref_algorithm) ops w) !! 1%positive = Some q.
Proof.
  intros ops q w.
  assert (Hl : heap w !! 1%positive = Some q) by (vm_compute; reflexivity).
  split; [exact Hl|].
  exact (calls_keep_existing_contexts ref_algorithm ops w 1%positive q
           ref_algorithm_grows Hl).
Defined.

Lemma backend_reads_iff_run_starts_witness :
  let w := (exec (H := ref_algorithm) (Init (VInstance 1%positive))
              (ref_world false)).2 in
  reachable (H := ref_algorithm) w
  /\ ((_quantum_instance w = VNone
       /\ backend w
          = (Raise (AttributeError "'NoneType' object has no attribute 'backend'"), w)
       /\ forall kw : gmap string nat,
            run (H := ref_algorithm) VNone kw w
            = (Raise (ValueError missing_context), w))
      \/ (exists l q, _quantum_instance w = VInstance l /\ heap w !! l = Some q
          /\ backend w = (Return (qi_backend q), w)
          /\ forall kw : gmap string nat,
               run (H := ref_algorithm) VNone kw w
               = _run (QuantumAlgorithm := ref_algorithm) w)).
Proof.
  intros w.
  assert (Harg : arg_ok (VInstance 1%positive) (ref_world false))
    by (vm_compute; eauto).
  assert (Hreach : reachable (H := ref_algorithm) w)
    by exact (reachable_init (VInstance 1%positive) (ref_world false) Harg).
  split; [exact Hreach|].
  exact (backend_reads_iff_run_starts ref_algorithm w ref_algorithm_ok Hreach).
Defined.

Lemma run_options_only_with_backend_witness :
  let w := ref_world true in
  (forall b : string, VNone <> VBackend b)
  /\ run (H := ref_algorithm) VNone {[ "shots" := 8 ]} w
     = run (H := ref_algorithm) VNone ∅ w.
Proof.
  intros w.
  assert (Hv : forall b : string, VNone <> VBackend b) by (intros b; discriminate).
  split; [exact Hv|].
  exact (run_options_only_with_backend ref_algorithm VNone {[ "shots" := 8 ]} ∅ w Hv).
Defined.

Lemma quantum_instance_round_trip_witness :
  let w := ref_world false in
  (forall b : string, VInstance 1%positive <> VBackend b)
  /\ (quantum_instance_setter (VInstance 1%positive);; quantum_instance) w
     = (Return (VInstance 1%positive), ref_world true).
Proof.
  intros w.
  assert (Hv : forall b : string, VInstance 1%positive <> VBackend b)
    by (intros b; discriminate).
  split; [exact Hv|].
  exact (quantum_instance_round_trip (C := ref_collaborator) (Attrs := unit)
           (VInstance 1%positive) w Hv).
Defined.

Lemma run_is_set_then_run_witness :
  let kw : gmap string nat := {[ "optA" := 1 ]} in
  let w := ref_world false in
  VBackend "qpu" <> VNone
  /\ run (H := ref_algorithm) (VBackend "qpu") kw w
     = (set_backend "qpu" kw;; run (H := ref_algorithm) VNone ∅) w.
Proof.
  intros kw w.
  assert (Hv : VBackend "qpu" <> VNone) by discriminate.
  split; [exact Hv|].
  exact (run_is_set_then_run ref_algorithm (VBackend "qpu") kw ∅ w Hv).
Defined.

Lemma run_with_stored_context_witness :
  let w := ref_world true in
  _quantum_instance w = VInstance 1%positive
  /\ run (H := ref_algorithm) (VInstance 1%positive) {[ "shots" := 8 ]} w
     = run (H := ref_algorithm) VNone ∅ w.
Proof.
  intros w. split; [reflexivity|].
  exact (run_with_stored_context ref_algorithm 1%positive {[ "shots" := 8 ]} ∅ w
           eq_refl).
Defined.
